(** * Paper-trading simulator: ledger, order processor and order log

    A shallow embedding of [PaperTradingBot] (paper_trading_bot.py) and the
    properties of its order processing.

    Numbers.  The program computes with Python floats.  The model comes
    twice.  In the first, quantities, prices and balances are exact
    rationals ([Q]), the "decimal" of the data model; [>=] on floats
    becomes [Qle_bool].  Its theorems have hypotheses that survive
    rounding (comparisons between inputs and stored values, exact bounds
    that imply the rounded test) and conclusions that give the program's
    own expressions.  In the second ([Generic]) the two order functions
    are written over any arithmetic, with binary64 and the rationals as
    instances; properties that depend on how a cost is rounded are stated
    there, on the tests the program itself makes.

    The values [nan] and [inf] that [float] also accepts have no
    counterpart in the rational model.

    Strings.  [str.upper] is modelled on ASCII letters; theorems about
    sides that are neither BUY nor SELL are stated for ASCII texts.

    Outside world.  Each call reads the price ticker once and the clock
    once; both answers are inputs of the call ([Env]).  What the program
    prints is returned as a list of [Line]s. *)

From Stdlib Require Import Ascii QArith Lqa.
From Stdlib Require Import PrimFloat.
From Stdlib Require Uint63.
From stdpp Require Import gmap strings list.

Set Warnings "-inexact-float".

Local Open Scope Q_scope.

(** ** Strings *)

Definition upper_ascii (c : ascii) : ascii :=
  let n := Ascii.N_of_ascii c in
  if ((97 <=? n) && (n <=? 122))%N then Ascii.ascii_of_N (n - 32) else c.

Fixpoint upper (s : string) : string :=
  match s with
  | EmptyString => EmptyString
  | String c r => String (upper_ascii c) (upper r)
  end.

(** Whether a text is made of ASCII characters only.  On such a text
    [upper] is [str.upper]; other characters are left as they are by
    [upper], while [str.upper] maps some of them to ASCII letters. *)
Fixpoint is_ascii (s : string) : bool :=
  match s with
  | EmptyString => true
  | String c r => (Ascii.N_of_ascii c <? 128)%N && is_ascii r
  end.

(** ** Data model *)

Inductive OrderType := MARKET | LIMIT.

Inductive Status := NEW | FILLED | REJECTED.

(** The order dictionary.  Keys that only one of the two order kinds has
    ([total_cost], [current_market_price], [filled_price]) are optional. *)
Record Order := mkOrder {
  orderId : Z;
  symbol : string;
  side : string;
  type : OrderType;
  quantity : Q;
  price : Q;
  total_cost : option Q;
  current_market_price : option Q;
  filled_price : option Q;
  status : Status;
  timestamp : string
}.

(** [order['status'] = st] *)
Definition set_status (st : Status) (o : Order) : Order :=
  mkOrder (orderId o) (symbol o) (side o) (type o) (quantity o) (price o)
          (total_cost o) (current_market_price o) (filled_price o)
          st (timestamp o).

(** [order['filled_price'] = p] *)
Definition set_filled_price (p : Q) (o : Order) : Order :=
  mkOrder (orderId o) (symbol o) (side o) (type o) (quantity o) (price o)
          (total_cost o) (current_market_price o) (Some p)
          (status o) (timestamp o).

(** The attributes of a [PaperTradingBot] instance. *)
Record Bot := mkBot {
  balance : Q;
  positions : gmap string Q;
  orders : list Order;
  order_id_counter : Z
}.

(** [PaperTradingBot.__init__] *)
Definition init : Bot := mkBot 10000 ∅ [] 1%Z.

(** [self.positions.get(symbol, 0)] *)
Definition held (self : Bot) (sym : string) : Q :=
  default 0 (positions self !! sym).

(** [self.balance = b] *)
Definition set_balance (b : Q) (self : Bot) : Bot :=
  mkBot b (positions self) (orders self) (order_id_counter self).

(** [self.positions[sym] = v] *)
Definition set_position (sym : string) (v : Q) (self : Bot) : Bot :=
  mkBot (balance self) (<[sym := v]> (positions self)) (orders self)
        (order_id_counter self).

(** [self.orders.append(order); self.order_id_counter += 1] *)
Definition log_order (o : Order) (self : Bot) : Bot :=
  mkBot (balance self) (positions self) (orders self ++ [o])
        (order_id_counter self + 1)%Z.

(** What one call observes of the outside world: the ticker's answer
    ([None] when the request or its parsing raises) and the clock. *)
Record Env := mkEnv {
  ticker : option Q;
  now : string
}.

(** The blocks of [print] calls, with the values they interpolate. *)
Inductive Line :=
| Error_getting_price (sym : string)
| BUY_ORDER_EXECUTED (qty : Q) (sym : string) (at_price cost remaining : Q)
| INSUFFICIENT_BALANCE (required available : Q)
| SELL_ORDER_EXECUTED (qty : Q) (sym : string) (at_price received new_balance : Q)
| INSUFFICIENT_POSITION (required available : Q)
| LIMIT_ORDER_PLACED (sd : string) (qty : Q) (sym : string)
                     (limit current : Q) (st : Status)
| Error.

(** ** Price oracle *)

Definition mock_prices : gmap string Q :=
  <["BTCUSDT" := 43000]> (<["ETHUSDT" := 2500]> (<["BNBUSDT" := 300]> ∅)).

Definition get_current_price (e : Env) (symbol : string) : Q * list Line :=
  match ticker e with
  | Some p => (p, [])
  | None => (default 1000 (mock_prices !! upper symbol),
             [Error_getting_price symbol])
  end.

(** ** Order processor *)

Definition place_market_order (e : Env) (symbol side : string) (quantity : Q)
    (self : Bot) : Order * Bot * list Line :=
  let current_price := fst (get_current_price e symbol) in
  let total_cost := quantity * current_price in
  let order :=
    mkOrder (order_id_counter self) (upper symbol) (upper side) MARKET
            quantity current_price (Some total_cost) None None
            FILLED (now e) in
  let '(order, self, out) :=
    if (upper side =? "BUY")%string then
      if Qle_bool total_cost (balance self) then
        let self := set_balance (balance self - total_cost) self in
        let self := set_position symbol (held self symbol + quantity) self in
        (order, self,
         [BUY_ORDER_EXECUTED quantity symbol current_price total_cost
                             (balance self)])
      else
        (set_status REJECTED order, self,
         [INSUFFICIENT_BALANCE total_cost (balance self)])
    else
      let current_position := held self symbol in
      if Qle_bool quantity current_position then
        let self := set_balance (balance self + total_cost) self in
        let self := set_position symbol (current_position - quantity) self in
        (order, self,
         [SELL_ORDER_EXECUTED quantity symbol current_price total_cost
                              (balance self)])
      else
        (set_status REJECTED order, self,
         [INSUFFICIENT_POSITION quantity current_position])
  in
  (order, log_order order self, snd (get_current_price e symbol) ++ out).

Definition place_limit_order (e : Env) (symbol side : string)
    (quantity price : Q) (self : Bot) : Order * Bot * list Line :=
  let current_price := fst (get_current_price e symbol) in
  let order :=
    mkOrder (order_id_counter self) (upper symbol) (upper side) LIMIT
            quantity price None (Some current_price) None
            NEW (now e) in
  let '(order, self) :=
    if ((upper side =? "BUY")%string && Qle_bool current_price price)
       || ((upper side =? "SELL")%string && Qle_bool price current_price)
    then
      let order := set_status FILLED order in
      let order := set_filled_price current_price order in
      let total_cost := quantity * current_price in
      if (upper side =? "BUY")%string && Qle_bool total_cost (balance self)
      then
        let self := set_balance (balance self - total_cost) self in
        let self := set_position symbol (held self symbol + quantity) self in
        (order, self)
      else if (upper side =? "SELL")%string
              && Qle_bool quantity (held self symbol)
      then
        let self := set_balance (balance self + total_cost) self in
        let self := set_position symbol (held self symbol - quantity) self in
        (order, self)
      else
        (set_status REJECTED order, self)
    else (order, self)
  in
  (order, log_order order self,
   snd (get_current_price e symbol)
   ++ [LIMIT_ORDER_PLACED side quantity symbol price current_price
                          (status order)]).

(** [PaperTradingBot.get_order_history]: [self.orders[-10:]] *)
Definition get_order_history (self : Bot) : list Order :=
  drop (length (orders self) - 10) (orders self).

(** ** Sessions: what the menu loop of [main] submits (options 1 and 2) *)

Inductive Request :=
| MarketOrder (symbol side : string) (quantity : Q)
| LimitOrder (symbol side : string) (quantity price : Q).

Definition submit (e : Env) (r : Request) (self : Bot)
    : Order * Bot * list Line :=
  match r with
  | MarketOrder sym sd q => place_market_order e sym sd q self
  | LimitOrder sym sd q lp => place_limit_order e sym sd q lp self
  end.

(** The three components of a call's result: the order returned, the bot
    afterwards, and what was printed. *)
Definition order_of (r : Order * Bot * list Line) : Order := fst (fst r).
Definition bot_of (r : Order * Bot * list Line) : Bot := snd (fst r).
Definition printed (r : Order * Bot * list Line) : list Line := snd r.

(** The bot after one submission. *)
Definition step (self : Bot) (er : Env * Request) : Bot :=
  bot_of (submit (fst er) (snd er) self).

(** The order returned by one submission. *)
Definition answer (self : Bot) (er : Env * Request) : Order :=
  order_of (submit (fst er) (snd er) self).

(** The orders returned by a session, oldest first. *)
Fixpoint answers (self : Bot) (ers : list (Env * Request)) : list Order :=
  match ers with
  | [] => []
  | er :: rest => answer self er :: answers (step self er) rest
  end.

(** The bot after each submission of a session, oldest first. *)
Fixpoint states_after (self : Bot) (ers : list (Env * Request)) : list Bot :=
  match ers with
  | [] => []
  | er :: rest => step self er :: states_after (step self er) rest
  end.

(** The bot at the end of a session. *)
Definition run (self : Bot) (ers : list (Env * Request)) : Bot :=
  fold_left step ers self.

(** What is typed at the menu of [main] for options 1 and 2: symbol and
    side after [strip()], and for each number what [float(input(...))]
    makes of the text, [None] when [float] raises [ValueError]. *)
Inductive Choice :=
| Choice1 (symbol side : string) (quantity : option Q)
| Choice2 (symbol side : string) (quantity price : option Q).

(** One turn of the [while True] loop of [main] on option 1 or 2; the
    exception raised by [float] is caught by the loop, which prints the
    error and goes on with the bot as it was. *)
Definition main_turn (e : Env) (c : Choice) (bot : Bot) : Bot * list Line :=
  match c with
  | Choice1 symbol side (Some quantity) =>
      (bot_of (place_market_order e symbol side quantity bot),
       printed (place_market_order e symbol side quantity bot))
  | Choice2 symbol side (Some quantity) (Some price) =>
      (bot_of (place_limit_order e symbol side quantity price bot),
       printed (place_limit_order e symbol side quantity price bot))
  | Choice1 _ _ None | Choice2 _ _ None _ | Choice2 _ _ (Some _) None =>
      (bot, [Error])
  end.

(** Request fields, for stating conditions on sessions. *)
Definition req_symbol (r : Request) : string :=
  match r with MarketOrder s _ _ | LimitOrder s _ _ _ => s end.

Definition req_quantity (r : Request) : Q :=
  match r with MarketOrder _ _ q | LimitOrder _ _ q _ => q end.

(** The price a submission is evaluated at. *)
Definition seen_price (er : Env * Request) : Q :=
  fst (get_current_price (fst er) (req_symbol (snd er))).

(** ** Account summary *)

(** The dictionary [get_account_balance] returns. *)
Module Account.
Record t := mk {
  cash_balance : Q;
  positions : gmap string Q;
  total_portfolio_value : Q
}.
End Account.

(** [quantity > 0] *)
Definition is_positive (quantity : Q) : bool := negb (Qle_bool quantity 0).

(** The body of the [for symbol, quantity in self.positions.items()] loop,
    as a function of the running [total_value]; [w symbol] is what the
    call [get_current_price(symbol)] made for that entry observes. *)
Definition add_position_value (w : string -> Env) (symbol : string)
    (quantity total_value : Q) : Q :=
  if is_positive quantity then
    let current_price := fst (get_current_price (w symbol) symbol) in
    let position_value := quantity * current_price in
    total_value + position_value
  else total_value.

(** [PaperTradingBot.get_account_balance].  The loop is a fold over the
    positions map.  The lines that [get_current_price] prints for entries
    whose ticker request fails are left out: they come in the
    dictionary's insertion order, which the positions map does not
    record. *)
Definition get_account_balance (w : string -> Env) (self : Bot) : Account.t :=
  let total_value :=
    map_fold (add_position_value w) (balance self) (positions self) in
  Account.mk (balance self) (positions self) total_value.

(** ** The menu loop *)

(** What the user enters in one pass of the [while True] loop of [main]:
    an order (options 1 and 2, with the texts typed after them), one of
    the other options, or anything else. *)
Inductive Turn :=
| Place (c : Choice)
| Option3
| Option4
| Option5 (symbol : string)
| Option6
| OtherOption.

(** What [main] shows: the banner of [__init__], the menu, the lines of
    the order processor and of the exception handler, and the blocks
    printed by options 3 to 6 and for an unknown option, with the values
    they interpolate. *)
Inductive Screen :=
| INITIALIZED (starting_balance : Q)
| MENU
| Printed (l : Line)
| ACCOUNT_SUMMARY (cash_balance total_portfolio_value : Q)
                  (positions : gmap string Q)
| RECENT_ORDERS (shown : list (Z * string * Q * string * Status))
| CURRENT_PRICE (symbol : string) (price : Q)
| GOODBYE
| INVALID_OPTION.

(** The symbol typed for an order. *)
Definition choice_symbol (c : Choice) : string :=
  match c with Choice1 sym _ _ | Choice2 sym _ _ _ => sym end.

(** The body of the [try] for every option but 6.  [w symbol] is what a
    call of [get_current_price(symbol)] made during this pass observes. *)
Definition menu_option (w : string -> Env) (t : Turn) (bot : Bot)
    : Bot * list Screen :=
  match t with
  | Place c =>
      (fst (main_turn (w (choice_symbol c)) c bot),
       map Printed (snd (main_turn (w (choice_symbol c)) c bot)))
  | Option3 =>
      let balance := get_account_balance w bot in
      (bot, [ACCOUNT_SUMMARY (Account.cash_balance balance)
                             (Account.total_portfolio_value balance)
                             (Account.positions balance)])
  | Option4 =>
      let orders := get_order_history bot in
      (bot, [RECENT_ORDERS
               (map (fun order => (orderId order, side order, quantity order,
                                   symbol order, status order)) orders)])
  | Option5 symbol =>
      (bot, map Printed (snd (get_current_price (w symbol) symbol))
            ++ [CURRENT_PRICE symbol (fst (get_current_price (w symbol) symbol))])
  | Option6 => (bot, [GOODBYE])
  | OtherOption => (bot, [INVALID_OPTION])
  end.

(** The loop of [main] over the passes the user makes: it stops at option
    6, and here also when the script of inputs ends. *)
Fixpoint main_loop (script : list ((string -> Env) * Turn)) (bot : Bot)
    : Bot * list Screen :=
  match script with
  | [] => (bot, [])
  | (w, Option6) :: _ => (bot, [MENU; GOODBYE])
  | (w, t) :: rest =>
      (fst (main_loop rest (fst (menu_option w t bot))),
       MENU :: snd (menu_option w t bot)
            ++ snd (main_loop rest (fst (menu_option w t bot))))
  end.

(** [main]: a fresh bot, then the loop. *)
Definition main (script : list ((string -> Env) * Turn)) : Bot * list Screen :=
  (fst (main_loop script init),
   INITIALIZED (balance init) :: snd (main_loop script init)).

(** The orders a script gets as far as submitting: those of options 1 and
    2 whose numbers were accepted by [float], up to the first option 6. *)
Fixpoint submitted (script : list ((string -> Env) * Turn))
    : list (Env * Request) :=
  match script with
  | [] => []
  | (w, Option6) :: _ => []
  | (w, Place (Choice1 sym sd (Some q))) :: rest =>
      (w sym, MarketOrder sym sd q) :: submitted rest
  | (w, Place (Choice2 sym sd (Some q) (Some lp))) :: rest =>
      (w sym, LimitOrder sym sd q lp) :: submitted rest
  | _ :: rest => submitted rest
  end.

(** ** The order processor in the program's own arithmetic

    The two order functions once more, over any arithmetic that has the
    program's literals, [+], [-], [*] and [<=]: at [binary64] they compute
    as the program does, rounding included; at [exact] they are the
    rational model above.  Strings, statuses and order kinds are shared
    with it. *)

Module Generic.

Class Arith (N : Type) := {
  lit : Z -> N;
  add : N -> N -> N;
  sub : N -> N -> N;
  mul : N -> N -> N;
  leb : N -> N -> bool
}.

Section Processor.
Context {N : Type} {A : Arith N}.

Record Order := mkOrder {
  orderId : Z;
  symbol : string;
  side : string;
  type : OrderType;
  quantity : N;
  price : N;
  total_cost : option N;
  current_market_price : option N;
  filled_price : option N;
  status : Status;
  timestamp : string
}.

Definition set_status (st : Status) (o : Order) : Order :=
  mkOrder (orderId o) (symbol o) (side o) (type o) (quantity o) (price o)
          (total_cost o) (current_market_price o) (filled_price o)
          st (timestamp o).

Definition set_filled_price (p : N) (o : Order) : Order :=
  mkOrder (orderId o) (symbol o) (side o) (type o) (quantity o) (price o)
          (total_cost o) (current_market_price o) (Some p)
          (status o) (timestamp o).

(** What an order dictionary holds under a key. *)
Inductive Value :=
| VInt (z : Z)
| VStr (s : string)
| VNum (x : N).

(** The items of the order dictionary, in the order in which the program
    inserts the keys. *)
Definition items (o : Order) : list (string * Value) :=
  [("orderId", VInt (orderId o)); ("symbol", VStr (symbol o));
   ("side", VStr (side o));
   ("type", VStr match type o with MARKET => "MARKET" | LIMIT => "LIMIT" end);
   ("quantity", VNum (quantity o)); ("price", VNum (price o))]
  ++ match total_cost o with
     | Some c => [("total_cost", VNum c)]
     | None => []
     end
  ++ match current_market_price o with
     | Some p => [("current_market_price", VNum p)]
     | None => []
     end
  ++ [("status", VStr match status o with
                      | NEW => "NEW"
                      | FILLED => "FILLED"
                      | REJECTED => "REJECTED"
                      end);
      ("timestamp", VStr (timestamp o))]
  ++ match filled_price o with
     | Some p => [("filled_price", VNum p)]
     | None => []
     end.

(** [order.get(key)] *)
Definition get (o : Order) (key : string) : option Value :=
  match List.find (fun kv => (fst kv =? key)%string) (items o) with
  | Some kv => Some (snd kv)
  | None => None
  end.

Record Bot := mkBot {
  balance : N;
  positions : gmap string N;
  orders : list Order;
  order_id_counter : Z
}.

(** [PaperTradingBot.__init__] *)
Definition init : Bot := mkBot (lit 10000) ∅ [] 1%Z.

(** [self.positions.get(symbol, 0)] *)
Definition held (self : Bot) (sym : string) : N :=
  default (lit 0) (positions self !! sym).

Definition set_balance (b : N) (self : Bot) : Bot :=
  mkBot b (positions self) (orders self) (order_id_counter self).

Definition set_position (sym : string) (v : N) (self : Bot) : Bot :=
  mkBot (balance self) (<[sym := v]> (positions self)) (orders self)
        (order_id_counter self).

Definition log_order (o : Order) (self : Bot) : Bot :=
  mkBot (balance self) (positions self) (orders self ++ [o])
        (order_id_counter self + 1)%Z.

Record Env := mkEnv {
  ticker : option N;
  now : string
}.

Inductive Line :=
| Error_getting_price (sym : string)
| BUY_ORDER_EXECUTED (qty : N) (sym : string) (at_price cost remaining : N)
| INSUFFICIENT_BALANCE (required available : N)
| SELL_ORDER_EXECUTED (qty : N) (sym : string) (at_price received new_balance : N)
| INSUFFICIENT_POSITION (required available : N)
| LIMIT_ORDER_PLACED (sd : string) (qty : N) (sym : string)
                     (limit current : N) (st : Status).

Definition mock_prices : gmap string N :=
  <["BTCUSDT" := lit 43000]>
    (<["ETHUSDT" := lit 2500]> (<["BNBUSDT" := lit 300]> ∅)).

Definition get_current_price (e : Env) (symbol : string) : N * list Line :=
  match ticker e with
  | Some p => (p, [])
  | None => (default (lit 1000) (mock_prices !! upper symbol),
             [Error_getting_price symbol])
  end.

Definition place_market_order (e : Env) (symbol side : string) (quantity : N)
    (self : Bot) : Order * Bot * list Line :=
  let current_price := fst (get_current_price e symbol) in
  let total_cost := mul quantity current_price in
  let order :=
    mkOrder (order_id_counter self) (upper symbol) (upper side) MARKET
            quantity current_price (Some total_cost) None None
            FILLED (now e) in
  let '(order, self, out) :=
    if (upper side =? "BUY")%string then
      if leb total_cost (balance self) then
        let self := set_balance (sub (balance self) total_cost) self in
        let self :=
          set_position symbol (add (held self symbol) quantity) self in
        (order, self,
         [BUY_ORDER_EXECUTED quantity symbol current_price total_cost
                             (balance self)])
      else
        (set_status REJECTED order, self,
         [INSUFFICIENT_BALANCE total_cost (balance self)])
    else
      let current_position := held self symbol in
      if leb quantity current_position then
        let self := set_balance (add (balance self) total_cost) self in
        let self :=
          set_position symbol (sub current_position quantity) self in
        (order, self,
         [SELL_ORDER_EXECUTED quantity symbol current_price total_cost
                              (balance self)])
      else
        (set_status REJECTED order, self,
         [INSUFFICIENT_POSITION quantity current_position])
  in
  (order, log_order order self, snd (get_current_price e symbol) ++ out).

Definition place_limit_order (e : Env) (symbol side : string)
    (quantity price : N) (self : Bot) : Order * Bot * list Line :=
  let current_price := fst (get_current_price e symbol) in
  let order :=
    mkOrder (order_id_counter self) (upper symbol) (upper side) LIMIT
            quantity price None (Some current_price) None
            NEW (now e) in
  let '(order, self) :=
    if ((upper side =? "BUY")%string && leb current_price price)
       || ((upper side =? "SELL")%string && leb price current_price)
    then
      let order := set_status FILLED order in
      let order := set_filled_price current_price order in
      let total_cost := mul quantity current_price in
      if (upper side =? "BUY")%string && leb total_cost (balance self)
      then
        let self := set_balance (sub (balance self) total_cost) self in
        let self :=
          set_position symbol (add (held self symbol) quantity) self in
        (order, self)
      else if (upper side =? "SELL")%string
              && leb quantity (held self symbol)
      then
        let self := set_balance (add (balance self) total_cost) self in
        let self :=
          set_position symbol (sub (held self symbol) quantity) self in
        (order, self)
      else
        (set_status REJECTED order, self)
    else (order, self)
  in
  (order, log_order order self,
   snd (get_current_price e symbol)
   ++ [LIMIT_ORDER_PLACED side quantity symbol price current_price
                          (status order)]).

Definition order_of (r : Order * Bot * list Line) : Order := fst (fst r).
Definition bot_of (r : Order * Bot * list Line) : Bot := snd (fst r).
Definition printed (r : Order * Bot * list Line) : list Line := snd r.

End Processor.

Arguments Order N : clear implicits.
Arguments Bot N : clear implicits.
Arguments Env N : clear implicits.
Arguments Line N : clear implicits.
Arguments Value N : clear implicits.

End Generic.

(** Exact rational arithmetic. *)
#[global] Instance exact : Generic.Arith Q := {|
  Generic.lit := inject_Z;
  Generic.add := Qplus;
  Generic.sub := Qminus;
  Generic.mul := Qmult;
  Generic.leb := Qle_bool
|}.

(** The literal [z.0] as a binary64 number. *)
Definition float_of_Z (z : Z) : PrimFloat.float :=
  if (z <? 0)%Z
  then PrimFloat.opp (PrimFloat.of_uint63 (Uint63.of_Z (- z)))
  else PrimFloat.of_uint63 (Uint63.of_Z z).

(** IEEE 754 binary64 arithmetic, rounding to nearest: Python's [float]. *)
#[global] Instance binary64 : Generic.Arith PrimFloat.float := {|
  Generic.lit := float_of_Z;
  Generic.add := PrimFloat.add;
  Generic.sub := PrimFloat.sub;
  Generic.mul := PrimFloat.mul;
  Generic.leb := PrimFloat.leb
|}.

(** A ticker answer in binary64, with an empty clock reading. *)
Definition quote64 (p : PrimFloat.float) : Generic.Env PrimFloat.float :=
  Generic.mkEnv (Some p) "".

(** The rational model as data of the generic one. *)
Definition generic_order (o : Order) : Generic.Order Q :=
  Generic.mkOrder (orderId o) (symbol o) (side o) (type o) (quantity o)
                  (price o) (total_cost o) (current_market_price o)
                  (filled_price o) (status o) (timestamp o).

Definition generic_bot (s : Bot) : Generic.Bot Q :=
  Generic.mkBot (balance s) (positions s) (map generic_order (orders s))
                (order_id_counter s).

Definition generic_env (e : Env) : Generic.Env Q :=
  Generic.mkEnv (ticker e) (now e).

(** ** Sample sessions used in the examples below *)




(** A ticker answer, with an empty clock reading. *)
Definition quote (p : Q) : Env := mkEnv (Some p) "".

(** The bot after a market BUY of [-5] BTCUSDT at price 1. *)
Definition short_bot : Bot :=
  step init (quote 1, MarketOrder "BTCUSDT" "BUY" (-5)).

(** The bot after a market BUY of 1 [btcusdt] (lower case) at price 100. *)
Definition lower_case_bot : Bot :=
  step init (quote 100, MarketOrder "btcusdt" "BUY" 1).

(** * Properties *)

(** ** Comparisons *)

Lemma Qle_bool_true (x y : Q) : x <= y -> Qle_bool x y = true.
Proof. apply Qle_bool_iff. Qed.

Lemma Qle_bool_false (x y : Q) : y < x -> Qle_bool x y = false.
Proof.
  intros Hlt. destruct (Qle_bool x y) eqn:E; [|reflexivity].
  apply Qle_bool_iff in E. lra.
Qed.

Lemma Qle_bool_false_inv (x y : Q) : Qle_bool x y = false -> y < x.
Proof.
  intros E. apply Qnot_le_lt. intros Hle.
  apply Qle_bool_true in Hle. congruence.
Qed.

Lemma side_is (sd lit : string) : upper sd = lit -> (upper sd =? lit)%string = true.
Proof. intros ->. apply String.eqb_refl. Qed.

Lemma side_is_not (sd lit : string) :
  upper sd <> lit -> (upper sd =? lit)%string = false.
Proof. apply String.eqb_neq. Qed.

(** Case analysis on the tests the order processor makes. *)
Ltac split_tests :=
  repeat match goal with
  | |- context [ (?a =? ?b)%string ] =>
      let E := fresh "Eside" in
      destruct (a =? b)%string eqn:E;
      [apply String.eqb_eq in E | apply String.eqb_neq in E]
  | |- context [ Qle_bool ?a ?b ] =>
      let E := fresh "Ecmp" in
      destruct (Qle_bool a b) eqn:E;
      [apply Qle_bool_iff in E | apply Qle_bool_false_inv in E]
  end; cbn [andb orb].

(** ** One market order *)

Section MarketOrder.
Variables (e : Env) (sym sd : string) (q : Q) (s : Bot).

Let p := fst (get_current_price e sym).
Let r := place_market_order e sym sd q s.

Lemma market_buy_fills :
  upper sd = "BUY" -> q * p <= balance s ->
  status (order_of r) = FILLED
  /\ balance (bot_of r) = balance s - q * p
  /\ positions (bot_of r) = <[sym := held s sym + q]> (positions s).
Proof.
  intros Hsd Hle. subst r p. unfold place_market_order.
  rewrite (side_is _ _ Hsd), (Qle_bool_true _ _ Hle). cbn. auto.
Qed.

Lemma market_buy_rejects :
  upper sd = "BUY" -> balance s < q * p ->
  status (order_of r) = REJECTED
  /\ printed r = snd (get_current_price e sym)
                 ++ [INSUFFICIENT_BALANCE (q * p) (balance s)]
  /\ balance (bot_of r) = balance s
  /\ positions (bot_of r) = positions s.
Proof.
  intros Hsd Hlt. subst r p. unfold place_market_order.
  rewrite (side_is _ _ Hsd), (Qle_bool_false _ _ Hlt). cbn. auto.
Qed.

Lemma market_else_fills :
  upper sd <> "BUY" -> q <= held s sym ->
  status (order_of r) = FILLED
  /\ balance (bot_of r) = balance s + q * p
  /\ positions (bot_of r) = <[sym := held s sym - q]> (positions s).
Proof.
  intros Hsd Hle. subst r p. unfold place_market_order.
  rewrite (side_is_not _ _ Hsd), (Qle_bool_true _ _ Hle). cbn. auto.
Qed.

Lemma market_else_rejects :
  upper sd <> "BUY" -> held s sym < q ->
  status (order_of r) = REJECTED
  /\ printed r = snd (get_current_price e sym)
                 ++ [INSUFFICIENT_POSITION q (held s sym)]
  /\ balance (bot_of r) = balance s
  /\ positions (bot_of r) = positions s.
Proof.
  intros Hsd Hlt. subst r p. unfold place_market_order.
  rewrite (side_is_not _ _ Hsd), (Qle_bool_false _ _ Hlt). cbn. auto.
Qed.

Lemma market_order_logged :
  orderId (order_of r) = order_id_counter s
  /\ orders (bot_of r) = orders s ++ [order_of r]
  /\ order_id_counter (bot_of r) = (order_id_counter s + 1)%Z.
Proof.
  subst r. unfold place_market_order. split_tests; cbn; auto.
Qed.

Lemma market_order_resolved :
  status (order_of r) = FILLED \/ status (order_of r) = REJECTED.
Proof.
  subst r. unfold place_market_order. split_tests; cbn; auto.
Qed.
End MarketOrder.

(** C10.  A market order whose upper-cased side is neither BUY nor SELL is
    not turned away as invalid: it takes the SELL branch, which compares
    the held position with the quantity and, when it suffices, credits
    the proceeds and lowers the position; its effect on the ledger, its
    status and its printout are those of the same order with side
    SELL. *)
Theorem market_unknown_side_sells
    (e : Env) (sym sd : string) (q : Q) (s : Bot) :
  upper sd <> "BUY" -> upper sd <> "SELL" ->
  (q <= held s sym ->
     status (order_of (place_market_order e sym sd q s)) = FILLED
     /\ balance (bot_of (place_market_order e sym sd q s))
        = balance s + q * fst (get_current_price e sym)
     /\ positions (bot_of (place_market_order e sym sd q s))
        = <[sym := held s sym - q]> (positions s))
  /\ (held s sym < q ->
     status (order_of (place_market_order e sym sd q s)) = REJECTED
     /\ In (INSUFFICIENT_POSITION q (held s sym))
           (printed (place_market_order e sym sd q s))
     /\ balance (bot_of (place_market_order e sym sd q s)) = balance s
     /\ positions (bot_of (place_market_order e sym sd q s)) = positions s)
  /\ status (order_of (place_market_order e sym sd q s))
     = status (order_of (place_market_order e sym "SELL" q s))
  /\ balance (bot_of (place_market_order e sym sd q s))
     = balance (bot_of (place_market_order e sym "SELL" q s))
  /\ positions (bot_of (place_market_order e sym sd q s))
     = positions (bot_of (place_market_order e sym "SELL" q s))
  /\ printed (place_market_order e sym sd q s)
     = printed (place_market_order e sym "SELL" q s).
Proof.
  intros Hbuy Hsell. split; [|split].
  - intros Hle. exact (market_else_fills e sym sd q s Hbuy Hle).
  - intros Hlt.
    destruct (market_else_rejects e sym sd q s Hbuy Hlt) as (Hst & Hout & Hb & Hp).
    repeat split; try assumption.
    rewrite Hout. apply in_or_app. right. left. reflexivity.
  - unfold place_market_order.
    rewrite (side_is_not _ _ Hbuy). change (upper "SELL" =? "BUY")%string with false.
    cbn iota. destruct (Qle_bool q (held s sym)); cbn; auto.
Qed.

(** C10 at a concrete order: side HOLD, quantity 2 out of 5 held, price 10. *)
Lemma market_unknown_side_sells_witness :
  status (order_of (place_market_order (mkEnv (Some 10) "") "ETHUSDT" "hold" 2
                      (mkBot 0 (<["ETHUSDT" := 5]> ∅) [] 1))) = FILLED
  /\ balance (bot_of (place_market_order (mkEnv (Some 10) "") "ETHUSDT" "hold" 2
                        (mkBot 0 (<["ETHUSDT" := 5]> ∅) [] 1))) == 20.
Proof.
  destruct (market_unknown_side_sells (mkEnv (Some 10) "") "ETHUSDT" "hold" 2
              (mkBot 0 (<["ETHUSDT" := 5]> ∅) [] 1)) as (Hfill & _);
    [discriminate | discriminate | ].
  destruct Hfill as (Hst & Hb & _); [vm_compute; discriminate | ].
  split; [exact Hst | rewrite Hb; reflexivity].
Defined.

(** ** One limit order *)

Section LimitOrder.
Variables (e : Env) (sym sd : string) (q lp : Q) (s : Bot).

Let p := fst (get_current_price e sym).
Let r := place_limit_order e sym sd q lp s.

Lemma limit_order_logged :
  orderId (order_of r) = order_id_counter s
  /\ orders (bot_of r) = orders s ++ [order_of r]
  /\ order_id_counter (bot_of r) = (order_id_counter s + 1)%Z.
Proof.
  subst r. unfold place_limit_order. split_tests; cbn; auto.
Qed.

Lemma limit_buy_fills :
  upper sd = "BUY" -> p <= lp -> q * p <= balance s ->
  status (order_of r) = FILLED
  /\ filled_price (order_of r) = Some p
  /\ balance (bot_of r) = balance s - q * p
  /\ positions (bot_of r) = <[sym := held s sym + q]> (positions s).
Proof.
  intros Hsd Hgate Hle. subst r p. unfold place_limit_order.
  rewrite (side_is _ _ Hsd), (Qle_bool_true _ _ Hgate), (Qle_bool_true _ _ Hle).
  cbn. auto.
Qed.

Lemma limit_sell_fills :
  upper sd = "SELL" -> lp <= p -> q <= held s sym ->
  status (order_of r) = FILLED
  /\ filled_price (order_of r) = Some p
  /\ balance (bot_of r) = balance s + q * p
  /\ positions (bot_of r) = <[sym := held s sym - q]> (positions s).
Proof.
  intros Hsd Hgate Hle. subst r p. unfold place_limit_order.
  assert (Hnb : (upper sd =? "BUY")%string = false) by (rewrite Hsd; reflexivity).
  rewrite Hnb, (side_is _ _ Hsd), (Qle_bool_true _ _ Hgate), (Qle_bool_true _ _ Hle).
  cbn. auto.
Qed.

Lemma limit_buy_waits :
  upper sd = "BUY" -> lp < p ->
  status (order_of r) = NEW
  /\ filled_price (order_of r) = None
  /\ printed r = snd (get_current_price e sym)
                 ++ [LIMIT_ORDER_PLACED sd q sym lp p NEW]
  /\ balance (bot_of r) = balance s
  /\ positions (bot_of r) = positions s.
Proof.
  intros Hsd Hgate. subst r p. unfold place_limit_order.
  assert (Hns : (upper sd =? "SELL")%string = false) by (rewrite Hsd; reflexivity).
  rewrite Hns, (side_is _ _ Hsd), (Qle_bool_false _ _ Hgate).
  cbn. auto.
Qed.

Lemma limit_sell_waits :
  upper sd = "SELL" -> p < lp ->
  status (order_of r) = NEW
  /\ filled_price (order_of r) = None
  /\ printed r = snd (get_current_price e sym)
                 ++ [LIMIT_ORDER_PLACED sd q sym lp p NEW]
  /\ balance (bot_of r) = balance s
  /\ positions (bot_of r) = positions s.
Proof.
  intros Hsd Hgate. subst r p. unfold place_limit_order.
  assert (Hnb : (upper sd =? "BUY")%string = false) by (rewrite Hsd; reflexivity).
  rewrite Hnb, (side_is _ _ Hsd), (Qle_bool_false _ _ Hgate).
  cbn. auto.
Qed.

Lemma limit_marketable_resolved :
  (upper sd = "BUY" /\ p <= lp) \/ (upper sd = "SELL" /\ lp <= p) ->
  status (order_of r) = FILLED \/ status (order_of r) = REJECTED.
Proof.
  intros Hgate. subst r p. unfold place_limit_order.
  destruct Hgate as [[Hsd Hgate] | [Hsd Hgate]].
  - rewrite (side_is _ _ Hsd), (Qle_bool_true _ _ Hgate). cbn [andb orb].
    split_tests; cbn; auto.
  - rewrite (side_is _ _ Hsd), (Qle_bool_true _ _ Hgate).
    rewrite Bool.orb_true_r. split_tests; cbn; auto.
Qed.
End LimitOrder.

(** C1, as stated, fails: a BUY limit at 90 against a market price of 100
    comes back with status NEW, not REJECTED, and nothing is printed or
    recorded about a reason. *)
Lemma limit_not_marketable_is_not_rejected :
  90 < fst (get_current_price (mkEnv (Some 100) "") "BTCUSDT")
  /\ status (order_of (place_limit_order (mkEnv (Some 100) "") "BTCUSDT" "BUY"
                                         1 90 init)) = NEW
  /\ status (order_of (place_limit_order (mkEnv (Some 100) "") "BTCUSDT" "BUY"
                                         1 90 init)) <> REJECTED
  /\ printed (place_limit_order (mkEnv (Some 100) "") "BTCUSDT" "BUY" 1 90 init)
     = [LIMIT_ORDER_PLACED "BUY" 1 "BTCUSDT" 90 100 NEW].
Proof.
  split; [reflexivity|]. split; [reflexivity|]. split; [discriminate|reflexivity].
Qed.

(** C1, amended.  A limit order whose price condition is not met (BUY with
    limit below the market price, SELL with limit above it) is returned
    and logged with status NEW, without a fill price, and leaves the cash
    balance and the positions unchanged; a limit order whose price
    condition is met is returned FILLED or REJECTED by the same call. *)
Theorem limit_not_marketable_stays_new
    (e : Env) (sym sd : string) (q lp : Q) (s : Bot) :
  ((upper sd = "BUY" /\ lp < fst (get_current_price e sym))
   \/ (upper sd = "SELL" /\ fst (get_current_price e sym) < lp) ->
   status (order_of (place_limit_order e sym sd q lp s)) = NEW
   /\ filled_price (order_of (place_limit_order e sym sd q lp s)) = None
   /\ In (LIMIT_ORDER_PLACED sd q sym lp (fst (get_current_price e sym)) NEW)
         (printed (place_limit_order e sym sd q lp s))
   /\ balance (bot_of (place_limit_order e sym sd q lp s)) = balance s
   /\ positions (bot_of (place_limit_order e sym sd q lp s)) = positions s
   /\ orders (bot_of (place_limit_order e sym sd q lp s))
      = orders s ++ [order_of (place_limit_order e sym sd q lp s)])
  /\ ((upper sd = "BUY" /\ fst (get_current_price e sym) <= lp)
      \/ (upper sd = "SELL" /\ lp <= fst (get_current_price e sym)) ->
      status (order_of (place_limit_order e sym sd q lp s)) = FILLED
      \/ status (order_of (place_limit_order e sym sd q lp s)) = REJECTED).
Proof.
  split.
  - intros Hgate.
    assert (Hw : status (order_of (place_limit_order e sym sd q lp s)) = NEW
      /\ filled_price (order_of (place_limit_order e sym sd q lp s)) = None
      /\ printed (place_limit_order e sym sd q lp s)
         = snd (get_current_price e sym)
           ++ [LIMIT_ORDER_PLACED sd q sym lp (fst (get_current_price e sym)) NEW]
      /\ balance (bot_of (place_limit_order e sym sd q lp s)) = balance s
      /\ positions (bot_of (place_limit_order e sym sd q lp s)) = positions s).
    { destruct Hgate as [[Hsd Hlt] | [Hsd Hlt]].
      - exact (limit_buy_waits e sym sd q lp s Hsd Hlt).
      - exact (limit_sell_waits e sym sd q lp s Hsd Hlt). }
    destruct Hw as (Hst & Hfp & Hout & Hb & Hp).
    repeat split; try assumption.
    + rewrite Hout. apply in_or_app. right. left. reflexivity.
    + apply (limit_order_logged e sym sd q lp s).
  - apply limit_marketable_resolved.
Qed.

(** C1 amended, at a SELL limit of 110 against a market price of 100. *)
Lemma limit_not_marketable_stays_new_witness :
  110 > fst (get_current_price (mkEnv (Some 100) "") "BTCUSDT")
  /\ status (order_of (place_limit_order (mkEnv (Some 100) "") "BTCUSDT" "sell"
                                         1 110 init)) = NEW
  /\ balance (bot_of (place_limit_order (mkEnv (Some 100) "") "BTCUSDT" "sell"
                                        1 110 init)) = 10000.
Proof.
  split; [reflexivity|].
  destruct (limit_not_marketable_stays_new (mkEnv (Some 100) "") "BTCUSDT" "sell"
              1 110 init) as (Hnew & _).
  destruct Hnew as (Hst & _ & _ & Hb & _);
    [right; split; reflexivity | ].
  split; [exact Hst | exact Hb].
Defined.

(** C4.  With the balance check (BUY) or the position check (SELL)
    passing, a limit order is FILLED exactly when its price condition
    holds: [p <= lp] for a BUY, [lp <= p] for a SELL.  When it is FILLED
    the recorded fill price is the market price [p] and the amount
    debited (BUY) or credited (SELL) is [q * p]; the limit [lp] enters
    neither. *)
Theorem limit_fill_gate (e : Env) (sym sd : string) (q lp : Q) (s : Bot) :
  (upper sd = "BUY" /\ q * fst (get_current_price e sym) <= balance s)
  \/ (upper sd = "SELL" /\ q <= held s sym) ->
  (status (order_of (place_limit_order e sym sd q lp s)) = FILLED
   <-> (upper sd = "BUY" /\ fst (get_current_price e sym) <= lp)
       \/ (upper sd = "SELL" /\ lp <= fst (get_current_price e sym)))
  /\ (status (order_of (place_limit_order e sym sd q lp s)) = FILLED ->
      filled_price (order_of (place_limit_order e sym sd q lp s))
      = Some (fst (get_current_price e sym))
      /\ (upper sd = "BUY" ->
          balance (bot_of (place_limit_order e sym sd q lp s))
          = balance s - q * fst (get_current_price e sym)
          /\ positions (bot_of (place_limit_order e sym sd q lp s))
             = <[sym := held s sym + q]> (positions s))
      /\ (upper sd = "SELL" ->
          balance (bot_of (place_limit_order e sym sd q lp s))
          = balance s + q * fst (get_current_price e sym)
          /\ positions (bot_of (place_limit_order e sym sd q lp s))
             = <[sym := held s sym - q]> (positions s))).
Proof.
  intros [[Hsd Hok] | [Hsd Hok]].
  - assert (Hns : upper sd <> "SELL") by (rewrite Hsd; discriminate).
    destruct (Qlt_le_dec lp (fst (get_current_price e sym))) as [Hlt | Hle].
    + destruct (limit_buy_waits e sym sd q lp s Hsd Hlt) as (Hst & _).
      split.
      * rewrite Hst. split; [discriminate|].
        intros [[_ H] | [H _]]; [lra | contradiction].
      * rewrite Hst. discriminate.
    + destruct (limit_buy_fills e sym sd q lp s Hsd Hle Hok)
        as (Hst & Hfp & Hb & Hp).
      split.
      * split; [intros _; left; auto | intros _; exact Hst].
      * intros _. split; [exact Hfp|]. split; [auto | contradiction].
  - assert (Hnb : upper sd <> "BUY") by (rewrite Hsd; discriminate).
    destruct (Qlt_le_dec (fst (get_current_price e sym)) lp) as [Hlt | Hle].
    + destruct (limit_sell_waits e sym sd q lp s Hsd Hlt) as (Hst & _).
      split.
      * rewrite Hst. split; [discriminate|].
        intros [[H _] | [_ H]]; [contradiction | lra].
      * rewrite Hst. discriminate.
    + destruct (limit_sell_fills e sym sd q lp s Hsd Hle Hok)
        as (Hst & Hfp & Hb & Hp).
      split.
      * split; [intros _; right; auto | intros _; exact Hst].
      * intros _. split; [exact Hfp|]. split; [contradiction | auto].
Qed.

(** C4 at the documented instance: BUY limit 110 against a market price of
    100 fills at 100. *)
Lemma limit_fill_gate_witness :
  1 * fst (get_current_price (mkEnv (Some 100) "") "BTCUSDT") <= balance init
  /\ status (order_of (place_limit_order (mkEnv (Some 100) "") "BTCUSDT" "BUY"
                                         1 110 init)) = FILLED
  /\ filled_price (order_of (place_limit_order (mkEnv (Some 100) "") "BTCUSDT"
                                               "BUY" 1 110 init)) = Some 100
  /\ balance (bot_of (place_limit_order (mkEnv (Some 100) "") "BTCUSDT" "BUY"
                                        1 110 init)) == 9900.
Proof.
  assert (Hok : 1 * fst (get_current_price (mkEnv (Some 100) "") "BTCUSDT")
                <= balance init) by (vm_compute; discriminate).
  split; [exact Hok|].
  destruct (limit_fill_gate (mkEnv (Some 100) "") "BTCUSDT" "BUY" 1 110 init)
    as (Hiff & Hfill); [left; split; [reflexivity | exact Hok] | ].
  assert (Hst : status (order_of (place_limit_order (mkEnv (Some 100) "")
                                    "BTCUSDT" "BUY" 1 110 init)) = FILLED).
  { apply Hiff. left. split; [reflexivity | vm_compute; discriminate]. }
  destruct (Hfill Hst) as (Hfp & Hbuy & _).
  destruct (Hbuy eq_refl) as (Hb & _).
  split; [exact Hst|]. split; [exact Hfp|]. rewrite Hb. reflexivity.
Defined.

(** ** Sessions *)

Lemma submit_logged (s : Bot) (er : Env * Request) :
  orderId (answer s er) = order_id_counter s
  /\ orders (step s er) = orders s ++ [answer s er]
  /\ order_id_counter (step s er) = (order_id_counter s + 1)%Z.
Proof.
  destruct er as [e [sym sd q | sym sd q lp]]; unfold answer, step; cbn [submit fst snd].
  - apply market_order_logged.
  - apply limit_order_logged.
Qed.

Lemma run_cons (s : Bot) (er : Env * Request) (ers : list (Env * Request)) :
  run s (er :: ers) = run (step s er) ers.
Proof. reflexivity. Qed.

(** C6.  Over any session the orders returned carry the identifiers
    [c], [c+1], [c+2], ... where [c] is the counter at the start, so no
    identifier occurs twice; each order, whatever its status, is appended
    to the order log in submission order; and the counter ends at [c]
    plus the number of submissions. *)
Theorem identifiers_consecutive (ers : list (Env * Request)) (s : Bot) :
  map orderId (answers s ers)
  = seqZ (order_id_counter s) (Z.of_nat (length ers))
  /\ NoDup (map orderId (answers s ers))
  /\ orders (run s ers) = orders s ++ answers s ers
  /\ order_id_counter (run s ers)
     = (order_id_counter s + Z.of_nat (length ers))%Z.
Proof.
  assert (Hids : forall ers s, map orderId (answers s ers)
            = seqZ (order_id_counter s) (Z.of_nat (length ers))
            /\ orders (run s ers) = orders s ++ answers s ers
            /\ order_id_counter (run s ers)
               = (order_id_counter s + Z.of_nat (length ers))%Z);
    [ clear ers s
    | destruct (Hids ers s) as (Hid & Hlog & Hcnt);
      repeat split; try assumption; rewrite Hid; apply NoDup_seqZ ].
  intros ers. induction ers as [| er ers IH]; intros s.
  - cbn. rewrite app_nil_r, Z.add_0_r. auto.
  - destruct (submit_logged s er) as (Hid & Hlog & Hcnt).
    destruct (IH (step s er)) as (IHid & IHlog & IHcnt).
    rewrite run_cons. cbn [answers map length].
    split; [|split].
    + rewrite seqZ_cons by lia. f_equal; [exact Hid|].
      rewrite IHid, Hcnt. f_equal; lia.
    + rewrite IHlog, Hlog, <- app_assoc. reflexivity.
    + rewrite IHcnt, Hcnt. lia.
Qed.


Lemma held_nonneg (s : Bot) (sym : string) :
  map_Forall (fun _ v => 0 <= v) (positions s) -> 0 <= held s sym.
Proof.
  intros Hall. unfold held.
  destruct (positions s !! sym) as [v|] eqn:E; cbn; [|lra].
  exact (Hall sym v E).
Qed.

Lemma step_positions_nonneg (s : Bot) (er : Env * Request) :
  map_Forall (fun _ v => 0 <= v) (positions s) ->
  0 <= req_quantity (snd er) ->
  map_Forall (fun _ v => 0 <= v) (positions (step s er)).
Proof.
  destruct er as [e [sym sd q | sym sd q lp]];
    unfold step; cbn [submit fst snd req_quantity];
    intros Hall Hq; pose proof (held_nonneg s sym Hall) as Hheld.
  - unfold place_market_order. split_tests; cbn; try assumption;
      apply map_Forall_insert_2; try assumption; cbn; unfold held in *; cbn; lra.
  - unfold place_limit_order. split_tests; cbn; try assumption;
      apply map_Forall_insert_2; try assumption; cbn; unfold held in *; cbn; lra.
Qed.




(** C5, as stated, fails: a market BUY of [-1] costs [-100], which the
    balance covers, so it is FILLED and stores the quantity [-1]. *)
Lemma negative_buy_goes_short :
  status (answer init (mkEnv (Some 100) "", MarketOrder "BTCUSDT" "BUY" (-1)))
  = FILLED
  /\ positions (step init (mkEnv (Some 100) "", MarketOrder "BTCUSDT" "BUY" (-1)))
     !! "BTCUSDT" = Some (-1)
  /\ ~ map_Forall (fun _ v => 0 <= v)
        (positions (step init (mkEnv (Some 100) "",
                               MarketOrder "BTCUSDT" "BUY" (-1)))).
Proof.
  split; [reflexivity|]. split; [reflexivity|].
  intros H. specialize (H "BTCUSDT" (-1) eq_refl). apply H. reflexivity.
Qed.

(** C5, amended.  For every session whose orders all have a quantity
    [>= 0], started from positions that are all [>= 0] (in particular from
    the empty map), every quantity stored in the positions map is [>= 0]
    after every order. *)
Theorem positions_nonneg (ers : list (Env * Request)) (s : Bot) :
  map_Forall (fun _ v => 0 <= v) (positions s) ->
  Forall (fun er => 0 <= req_quantity (snd er)) ers ->
  Forall (fun s' => map_Forall (fun _ v => 0 <= v) (positions s'))
         (states_after s ers).
Proof.
  revert s. induction ers as [| er ers IH]; intros s Hpos Hall; cbn.
  - constructor.
  - inversion Hall as [| ? ? Hq Hrest]; subst.
    pose proof (step_positions_nonneg s er Hpos Hq) as Hpos'.
    constructor; [exact Hpos' | exact (IH _ Hpos' Hrest)].
Qed.

(** C5 amended, on a session from the initial state. *)
Lemma positions_nonneg_witness :
  Forall (fun s' => map_Forall (fun _ v => 0 <= v) (positions s'))
    (states_after init
       [(mkEnv (Some 3000) "", MarketOrder "ethusdt" "buy" 2);
        (mkEnv (Some 2500) "", MarketOrder "ethusdt" "sell" 2);
        (mkEnv (Some 2500) "", MarketOrder "ethusdt" "sell" 1);
        (mkEnv (Some 100) "", LimitOrder "bnbusdt" "BUY" 3 120)]).
Proof.
  apply positions_nonneg.
  - apply map_Forall_empty.
  - repeat constructor; vm_compute; discriminate.
Defined.

(** ** Quantities that are not positive *)

Lemma held_set_position (s : Bot) (sym k : string) (v : Q) :
  held (set_position sym v s) k = if decide (sym = k) then v else held s k.
Proof.
  unfold held, set_position. cbn. rewrite lookup_insert.
  destruct (decide (sym = k)); reflexivity.
Qed.

Lemma held_log_order (s : Bot) (o : Order) (k : string) :
  held (log_order o s) k = held s k.
Proof. reflexivity. Qed.

Lemma held_set_balance (s : Bot) (b : Q) (k : string) :
  held (set_balance b s) k = held s k.
Proof. reflexivity. Qed.

Lemma zero_quantity_keeps_ledger (s : Bot) (er : Env * Request) :
  req_quantity (snd er) == 0 ->
  balance (step s er) == balance s
  /\ forall k, held (step s er) k == held s k.
Proof.
  destruct er as [e [sym sd q | sym sd q lp]];
    unfold step; cbn [submit fst snd req_quantity]; intros Hq.
  - unfold place_market_order. split_tests; cbn [bot_of fst snd log_order balance set_balance set_position];
      (split; [try reflexivity; rewrite Hq; ring | ]); intros k;
      rewrite held_log_order, ?held_set_position, ?held_set_balance;
      try reflexivity; destruct (decide (sym = k)) as [<- |];
      try reflexivity; rewrite Hq; ring.
  - unfold place_limit_order. split_tests; cbn [bot_of fst snd log_order balance set_balance set_position];
      (split; [try reflexivity; rewrite Hq; ring | ]); intros k;
      rewrite held_log_order, ?held_set_position, ?held_set_balance;
      try reflexivity; destruct (decide (sym = k)) as [<- |];
      try reflexivity; rewrite Hq; ring.
Qed.

(** C3, as stated, fails: a market BUY of [-1] at price 100 is not turned
    away.  It is FILLED, the balance goes from 10000 to 10100 and a
    position of [-1] is stored. *)
Lemma negative_quantity_is_filled :
  -1 <= 0
  /\ status (answer init (quote 100, MarketOrder "BTCUSDT" "BUY" (-1))) = FILLED
  /\ balance (step init (quote 100, MarketOrder "BTCUSDT" "BUY" (-1))) == 10100
  /\ ~ balance (step init (quote 100, MarketOrder "BTCUSDT" "BUY" (-1)))
       == balance init
  /\ held (step init (quote 100, MarketOrder "BTCUSDT" "BUY" (-1))) "BTCUSDT"
     == -1
  /\ ~ held (step init (quote 100, MarketOrder "BTCUSDT" "BUY" (-1))) "BTCUSDT"
       == held init "BTCUSDT".
Proof.
  split; [discriminate|]. split; [reflexivity|]. split; [reflexivity|].
  split; [discriminate|]. split; [reflexivity | discriminate].
Qed.

(** C3, amended.  The quantity is not validated: a request with [q <= 0]
    goes through the ordinary fill rules.  A market BUY is FILLED when
    [q * p] does not exceed the balance, which then becomes
    [balance - q * p] with the position raised by [q]; a market order of
    any other side is FILLED when [q] does not exceed the held position,
    the balance becoming [balance + q * p] and the position lowered by
    [q].  Only with [q = 0] is the ledger sure to keep its values: the
    cash balance and every held quantity (an absent entry counting as 0)
    are the same after a market or limit request of quantity 0.  A
    quantity text on which [float] raises [ValueError] never reaches the
    order processor: the menu prints the error and the bot is left as it
    was. *)
Theorem nonpositive_quantity_is_processed
    (e : Env) (sym sd : string) (q : Q) (s : Bot) :
  q <= 0 ->
  (upper sd = "BUY" -> q * fst (get_current_price e sym) <= balance s ->
   status (order_of (place_market_order e sym sd q s)) = FILLED
   /\ balance (bot_of (place_market_order e sym sd q s))
      = balance s - q * fst (get_current_price e sym)
   /\ positions (bot_of (place_market_order e sym sd q s))
      = <[sym := held s sym + q]> (positions s))
  /\ (upper sd <> "BUY" -> q <= held s sym ->
      status (order_of (place_market_order e sym sd q s)) = FILLED
      /\ balance (bot_of (place_market_order e sym sd q s))
         = balance s + q * fst (get_current_price e sym)
      /\ positions (bot_of (place_market_order e sym sd q s))
         = <[sym := held s sym - q]> (positions s))
  /\ (q == 0 ->
      (balance (bot_of (place_market_order e sym sd q s)) == balance s
       /\ forall k, held (bot_of (place_market_order e sym sd q s)) k
                    == held s k)
      /\ forall lp,
         balance (bot_of (place_limit_order e sym sd q lp s)) == balance s
         /\ forall k, held (bot_of (place_limit_order e sym sd q lp s)) k
                      == held s k)
  /\ main_turn e (Choice1 sym sd None) s = (s, [Error])
  /\ forall lp, main_turn e (Choice2 sym sd None lp) s = (s, [Error]).
Proof.
  intros _. split; [|split; [|split; [|split]]].
  - apply market_buy_fills.
  - apply market_else_fills.
  - intros Hq. split.
    + exact (zero_quantity_keeps_ledger s (e, MarketOrder sym sd q) Hq).
    + intros lp.
      exact (zero_quantity_keeps_ledger s (e, LimitOrder sym sd q lp) Hq).
  - reflexivity.
  - reflexivity.
Qed.

(** C3 amended, at a market SELL of [-2] from the initial state at price
    50: FILLED, and the balance drops by 100. *)
Lemma nonpositive_quantity_is_processed_witness :
  -2 <= 0
  /\ status (order_of (place_market_order (quote 50) "BTCUSDT" "SELL" (-2) init))
     = FILLED
  /\ balance (bot_of (place_market_order (quote 50) "BTCUSDT" "SELL" (-2) init))
     == 9900.
Proof.
  assert (Hq : -2 <= 0) by (vm_compute; discriminate).
  split; [exact Hq|].
  destruct (nonpositive_quantity_is_processed (quote 50) "BTCUSDT" "SELL" (-2)
              init Hq) as (_ & Hsell & _).
  destruct Hsell as (Hst & Hb & _);
    [discriminate | vm_compute; discriminate | ].
  split; [exact Hst | rewrite Hb; reflexivity].
Defined.

(** ** Position keys *)

(** C9 on the code: a BUY of 1 [btcusdt] is recorded in the order under
    BTCUSDT but stored in the positions under [btcusdt]; the entry
    BTCUSDT stays absent, and a SELL of 1 [BTCUSDT] that follows is
    REJECTED for want of a position. *)
Theorem position_key_is_raw_symbol :
  symbol (answer init (quote 100, MarketOrder "btcusdt" "BUY" 1)) = "BTCUSDT"
  /\ status (answer init (quote 100, MarketOrder "btcusdt" "BUY" 1)) = FILLED
  /\ positions lower_case_bot !! "btcusdt" = Some 1
  /\ positions lower_case_bot !! "BTCUSDT" = None
  /\ symbol (answer lower_case_bot (quote 100, MarketOrder "BTCUSDT" "SELL" 1))
     = "BTCUSDT"
  /\ status (answer lower_case_bot (quote 100, MarketOrder "BTCUSDT" "SELL" 1))
     = REJECTED
  /\ printed (submit (quote 100) (MarketOrder "BTCUSDT" "SELL" 1) lower_case_bot)
     = [INSUFFICIENT_POSITION 1 0].
Proof. repeat split; reflexivity. Qed.


(** * Further properties of the order processor *)

(** What any submission does to the ledger: nothing, or one debit with
    the position raised, or one credit with the position lowered. *)
Lemma submit_cases (s : Bot) (er : Env * Request) :
  (status (answer s er) <> FILLED
   /\ balance (step s er) = balance s
   /\ positions (step s er) = positions s)
  \/ (status (answer s er) = FILLED
      /\ req_quantity (snd er) * seen_price er <= balance s
      /\ balance (step s er)
         = balance s - req_quantity (snd er) * seen_price er
      /\ positions (step s er)
         = <[req_symbol (snd er)
             := held s (req_symbol (snd er)) + req_quantity (snd er)]>
             (positions s))
  \/ (status (answer s er) = FILLED
      /\ req_quantity (snd er) <= held s (req_symbol (snd er))
      /\ balance (step s er)
         = balance s + req_quantity (snd er) * seen_price er
      /\ positions (step s er)
         = <[req_symbol (snd er)
             := held s (req_symbol (snd er)) - req_quantity (snd er)]>
             (positions s)).
Proof.
  destruct er as [e [sym sd q | sym sd q lp]];
    unfold answer, step, seen_price;
    cbn [submit fst snd req_quantity req_symbol].
  - unfold place_market_order. split_tests; cbn.
    + right. left. auto.
    + left. split; [discriminate | auto].
    + right. right. auto.
    + left. split; [discriminate | auto].
  - unfold place_limit_order. split_tests; cbn;
      first [ left; split; [discriminate | split; reflexivity]
            | right; left; repeat split; assumption
            | right; right; repeat split; assumption ].
Qed.

(** X1.  An order that is not returned FILLED (REJECTED, or a limit order
    left NEW) changes neither the cash balance nor the positions map. *)
Theorem unfilled_order_keeps_ledger (s : Bot) (er : Env * Request) :
  status (answer s er) <> FILLED ->
  balance (step s er) = balance s /\ positions (step s er) = positions s.
Proof.
  intros Hst.
  destruct (submit_cases s er) as [(_ & Hb & Hp) | [(Hf & _) | (Hf & _)]];
    [auto | contradiction | contradiction].
Qed.

Lemma unfilled_order_keeps_ledger_witness :
  balance (step init (quote 100, LimitOrder "BTCUSDT" "BUY" 200 100)) = 10000
  /\ positions (step init (quote 100, LimitOrder "BTCUSDT" "BUY" 200 100)) = ∅.
Proof.
  apply (unfilled_order_keeps_ledger init
           (quote 100, LimitOrder "BTCUSDT" "BUY" 200 100)).
  vm_compute. discriminate.
Defined.

(** X2.  An order changes no position but that of its own symbol: every
    other key of the positions map reads as before. *)
Theorem order_touches_one_symbol (s : Bot) (er : Env * Request) (k : string) :
  k <> req_symbol (snd er) ->
  positions (step s er) !! k = positions s !! k.
Proof.
  intros Hk.
  destruct (submit_cases s er)
    as [(_ & _ & Hp) | [(_ & _ & _ & Hp) | (_ & _ & _ & Hp)]];
    rewrite Hp; [reflexivity | |]; apply lookup_insert_ne; congruence.
Qed.

Lemma order_touches_one_symbol_witness :
  positions (step lower_case_bot (quote 5, MarketOrder "ETHUSDT" "BUY" 3))
    !! "btcusdt" = Some 1.
Proof.
  rewrite (order_touches_one_symbol lower_case_bot
             (quote 5, MarketOrder "ETHUSDT" "BUY" 3) "btcusdt").
  - reflexivity.
  - vm_compute. discriminate.
Defined.

(** X3.  Keys are never removed from the positions map: over any session
    the set of keys only grows, also when a position is sold down to
    zero. *)
Theorem position_keys_never_removed (ers : list (Env * Request)) (s : Bot) :
  dom (positions s) ⊆ dom (positions (run s ers)).
Proof.
  revert s. induction ers as [| er ers IH]; intros s.
  - reflexivity.
  - rewrite run_cons. etrans; [|apply IH].
    destruct (submit_cases s er)
      as [(_ & _ & Hp) | [(_ & _ & _ & Hp) | (_ & _ & _ & Hp)]];
      rewrite Hp; [reflexivity | |]; apply dom_insert_subseteq.
Qed.

(** ** Limit orders: sides and rejections *)

(** X5.  A limit order whose side, an ASCII text, is neither BUY nor SELL
    once upper-cased is never evaluated: at any limit and market price it
    is returned NEW without a fill price and leaves the ledger as it was.
    (A market order with such a side is treated as a SELL.) *)
Theorem limit_unknown_side_stays_new
    (e : Env) (sym sd : string) (q lp : Q) (s : Bot) :
  is_ascii sd = true ->
  upper sd <> "BUY" -> upper sd <> "SELL" ->
  status (order_of (place_limit_order e sym sd q lp s)) = NEW
  /\ filled_price (order_of (place_limit_order e sym sd q lp s)) = None
  /\ balance (bot_of (place_limit_order e sym sd q lp s)) = balance s
  /\ positions (bot_of (place_limit_order e sym sd q lp s)) = positions s.
Proof.
  intros _ Hb Hs. unfold place_limit_order.
  rewrite (side_is_not _ _ Hb), (side_is_not _ _ Hs). cbn. auto.
Qed.

Lemma limit_unknown_side_stays_new_witness :
  status (order_of (place_limit_order (quote 100) "BTCUSDT" "short" 1 100 init))
  = NEW.
Proof.
  apply (limit_unknown_side_stays_new (quote 100) "BTCUSDT" "short" 1 100 init);
    [reflexivity | vm_compute; discriminate | vm_compute; discriminate].
Defined.

(** X7.  The fill price of a limit order records the price condition, not
    the outcome: for a side given as an ASCII text it is present, and
    equal to the market price, exactly when the price condition holds
    (BUY with [p <= lp], SELL with [lp <= p]), whether the order ends
    FILLED or REJECTED; otherwise it is absent. *)
Theorem filled_price_iff_marketable
    (e : Env) (sym sd : string) (q lp : Q) (s : Bot) :
  is_ascii sd = true ->
  (filled_price (order_of (place_limit_order e sym sd q lp s))
   = Some (fst (get_current_price e sym))
   <-> (upper sd = "BUY" /\ fst (get_current_price e sym) <= lp)
       \/ (upper sd = "SELL" /\ lp <= fst (get_current_price e sym)))
  /\ (filled_price (order_of (place_limit_order e sym sd q lp s)) = None
      <-> ~ ((upper sd = "BUY" /\ fst (get_current_price e sym) <= lp)
             \/ (upper sd = "SELL" /\ lp <= fst (get_current_price e sym)))).
Proof.
  intros _. unfold place_limit_order.
  destruct (upper sd =? "BUY")%string eqn:Eb;
    [apply String.eqb_eq in Eb | apply String.eqb_neq in Eb];
  destruct (upper sd =? "SELL")%string eqn:Es;
    [apply String.eqb_eq in Es | apply String.eqb_neq in Es
    |apply String.eqb_eq in Es | apply String.eqb_neq in Es];
  try (rewrite Eb in Es; discriminate);
  split_tests; cbn;
    (split; split;
     [ intros H; try discriminate H; tauto
     | intros H; try reflexivity; exfalso;
       destruct H as [[H1 H2] | [H1 H2]];
       first [contradiction | congruence | lra]
     | intros H; try discriminate H; intros [[H1 H2] | [H1 H2]];
       first [contradiction | congruence | lra]
     | intros H; try reflexivity; exfalso; apply H; tauto ]).
Qed.

Lemma filled_price_iff_marketable_witness :
  filled_price (order_of (place_limit_order (quote 100) "BTCUSDT" "sell"
                                            1 90 init)) = Some 100
  /\ filled_price (order_of (place_limit_order (quote 100) "BTCUSDT" "sell"
                                               1 110 init)) = None.
Proof.
  destruct (filled_price_iff_marketable (quote 100) "BTCUSDT" "sell" 1 90 init
              eq_refl) as (Hsome & _).
  destruct (filled_price_iff_marketable (quote 100) "BTCUSDT" "sell" 1 110 init
              eq_refl) as (_ & Hnone).
  split.
  - apply Hsome. right. split; [reflexivity | vm_compute; discriminate].
  - apply Hnone. intros [[Hb _] | [_ Hle]]; [discriminate Hb|].
    vm_compute in Hle. apply Hle. reflexivity.
Defined.

(** ** Boundaries of market orders *)

(** X8.  The balance test is inclusive: a market BUY whose cost equals the
    whole cash balance is FILLED and leaves a balance of zero. *)
Theorem market_buy_whole_balance
    (e : Env) (sym sd : string) (q : Q) (s : Bot) :
  upper sd = "BUY" ->
  q * fst (get_current_price e sym) == balance s ->
  status (order_of (place_market_order e sym sd q s)) = FILLED
  /\ balance (bot_of (place_market_order e sym sd q s)) == 0
  /\ held (bot_of (place_market_order e sym sd q s)) sym == held s sym + q.
Proof.
  intros Hsd Heq.
  assert (Hle : q * fst (get_current_price e sym) <= balance s)
    by (rewrite Heq; apply Qle_refl).
  destruct (market_buy_fills e sym sd q s Hsd Hle) as (Hst & Hb & Hp).
  split; [exact Hst|]. split.
  - rewrite Hb, Heq. ring.
  - unfold held at 1. rewrite Hp, lookup_insert_eq. reflexivity.
Qed.

Lemma market_buy_whole_balance_witness :
  status (order_of (place_market_order (quote 2500) "ETHUSDT" "buy" 4 init))
  = FILLED
  /\ balance (bot_of (place_market_order (quote 2500) "ETHUSDT" "buy" 4 init))
     == 0.
Proof.
  destruct (market_buy_whole_balance (quote 2500) "ETHUSDT" "buy" 4 init)
    as (Hst & Hb & _); [reflexivity | reflexivity | ].
  split; [exact Hst | exact Hb].
Defined.

(** X9.  The position test is inclusive, and selling out does not delete
    the entry: a market SELL of exactly the held quantity is FILLED and
    leaves the symbol in the positions map with a quantity equal to
    zero. *)
Theorem market_sell_whole_position
    (e : Env) (sym sd : string) (q : Q) (s : Bot) :
  upper sd <> "BUY" ->
  q == held s sym ->
  status (order_of (place_market_order e sym sd q s)) = FILLED
  /\ balance (bot_of (place_market_order e sym sd q s))
     == balance s + q * fst (get_current_price e sym)
  /\ exists v, positions (bot_of (place_market_order e sym sd q s)) !! sym
               = Some v /\ v == 0.
Proof.
  intros Hsd Heq.
  assert (Hle : q <= held s sym) by (rewrite Heq; apply Qle_refl).
  destruct (market_else_fills e sym sd q s Hsd Hle) as (Hst & Hb & Hp).
  split; [exact Hst|]. split.
  - rewrite Hb. reflexivity.
  - exists (held s sym - q). split.
    + rewrite Hp. apply lookup_insert_eq.
    + rewrite Heq. ring.
Qed.

Lemma market_sell_whole_position_witness :
  status (order_of (place_market_order (quote 100) "btcusdt" "SELL" 1
                                       lower_case_bot)) = FILLED
  /\ exists v, positions (bot_of (place_market_order (quote 100) "btcusdt"
                                    "SELL" 1 lower_case_bot)) !! "btcusdt"
               = Some v /\ v == 0.
Proof.
  destruct (market_sell_whole_position (quote 100) "btcusdt" "SELL" 1
              lower_case_bot) as (Hst & _ & Hv);
    [vm_compute; discriminate | reflexivity | ].
  split; [exact Hst | exact Hv].
Defined.

(** ** Price oracle *)

Lemma upper_ascii_idem (c : ascii) : upper_ascii (upper_ascii c) = upper_ascii c.
Proof. destruct c as [[] [] [] [] [] [] [] []]; reflexivity. Qed.

Lemma upper_idem (s : string) : upper (upper s) = upper s.
Proof.
  induction s as [| c s IH]; cbn; [reflexivity|].
  rewrite upper_ascii_idem, IH. reflexivity.
Qed.

Lemma mock_price_values (k : string) (v : Q) :
  mock_prices !! k = Some v -> v = 43000 \/ v = 2500 \/ v = 300.
Proof.
  unfold mock_prices. rewrite !lookup_insert_Some, lookup_empty.
  intros [[_ <-] | [_ [[_ <-] | [_ [[_ <-] | [_ H]]]]]]; auto; discriminate.
Qed.

Lemma fallback_price_positive (e : Env) (sym : string) :
  ticker e = None -> 0 < fst (get_current_price e sym).
Proof.
  intros He. unfold get_current_price. rewrite He. cbn.
  destruct (mock_prices !! upper sym) as [v|] eqn:E; cbn; [|reflexivity].
  destruct (mock_price_values _ _ E) as [-> | [-> | ->]]; reflexivity.
Qed.

(** X11.  When the ticker request fails, [get_current_price] does not
    fail: it prints one error line and answers with a price from the
    fallback table or the default, that is one of 43000, 2500, 300 and
    1000, hence always a positive price. *)
Theorem price_fallback (e : Env) (sym : string) :
  ticker e = None ->
  snd (get_current_price e sym) = [Error_getting_price sym]
  /\ In (fst (get_current_price e sym)) [43000; 2500; 300; 1000]
  /\ 0 < fst (get_current_price e sym).
Proof.
  intros He. split; [|split].
  - unfold get_current_price. rewrite He. reflexivity.
  - unfold get_current_price. rewrite He. cbn [fst].
    destruct (mock_prices !! upper sym) as [v|] eqn:E; cbn [default].
    + destruct (mock_price_values _ _ E) as [-> | [-> | ->]]; cbn; auto.
    + cbn. auto.
  - exact (fallback_price_positive e sym He).
Qed.

Lemma price_fallback_witness :
  In (fst (get_current_price (mkEnv None "") "dogeusdt")) [43000; 2500; 300; 1000]
  /\ fst (get_current_price (mkEnv None "") "ethusdt") = 2500.
Proof.
  destruct (price_fallback (mkEnv None "") "dogeusdt") as (_ & Hin & _);
    [reflexivity | ].
  split; [exact Hin | reflexivity].
Defined.

(** X12.  Prices and order records do not depend on the letter case of
    the symbol: the price found for a symbol is the price found for its
    upper-cased form, with the ticker answering or not, and an order
    submitted under either spelling records the same symbol. *)
Theorem symbol_case_is_ignored_in_price_and_record
    (e : Env) (sym sd : string) (q lp : Q) (s : Bot) :
  fst (get_current_price e (upper sym)) = fst (get_current_price e sym)
  /\ symbol (order_of (place_market_order e (upper sym) sd q s))
     = symbol (order_of (place_market_order e sym sd q s))
  /\ price (order_of (place_market_order e (upper sym) sd q s))
     = price (order_of (place_market_order e sym sd q s))
  /\ symbol (order_of (place_limit_order e (upper sym) sd q lp s))
     = symbol (order_of (place_limit_order e sym sd q lp s))
  /\ current_market_price (order_of (place_limit_order e (upper sym) sd q lp s))
     = current_market_price (order_of (place_limit_order e sym sd q lp s)).
Proof.
  assert (Hp : fst (get_current_price e (upper sym))
               = fst (get_current_price e sym)).
  { unfold get_current_price. destruct (ticker e); [reflexivity|].
    cbn. rewrite upper_idem. reflexivity. }
  split; [exact Hp|].
  unfold place_market_order, place_limit_order. rewrite Hp, upper_idem.
  repeat split; split_tests; reflexivity.
Qed.



(** ** Order history *)

(** X14.  [get_order_history] never fails on a short log: it returns the
    whole log while it has at most ten orders, and otherwise its last
    ten, in log order. *)
Theorem history_is_last_ten (s : Bot) :
  get_order_history s `suffix_of` orders s
  /\ length (get_order_history s) = Nat.min 10 (length (orders s))
  /\ (length (orders s) <= 10 -> get_order_history s = orders s)%nat.
Proof.
  unfold get_order_history. split; [apply suffix_drop|]. split.
  - rewrite length_drop. lia.
  - intros Hle. replace (length (orders s) - 10)%nat with 0%nat by lia.
    reflexivity.
Qed.

Lemma session_log_ids (ers : list (Env * Request)) (s : Bot) :
  map orderId (orders (run s ers))
  = map orderId (orders s)
    ++ seqZ (order_id_counter s) (Z.of_nat (length ers)).
Proof.
  revert s. induction ers as [| er ers IH]; intros s.
  - cbn. rewrite app_nil_r. reflexivity.
  - destruct (submit_logged s er) as (Hid & Hlog & Hcnt).
    rewrite run_cons, IH, Hlog, Hcnt, map_app, <- app_assoc. cbn [map app].
    rewrite Hid. f_equal.
    rewrite (seqZ_cons (order_id_counter s)) by (cbn [length]; lia).
    f_equal. f_equal; cbn [length]; lia.
Qed.

Lemma drop_seqZ_of_nat (m : Z) (k n : nat) :
  (k <= n)%nat ->
  drop k (seqZ m (Z.of_nat n)) = seqZ (m + Z.of_nat k) (Z.of_nat (n - k)).
Proof.
  intros Hle.
  replace (Z.of_nat n) with (Z.of_nat k + Z.of_nat (n - k))%Z by lia.
  rewrite seqZ_app by lia.
  apply drop_app_length'. rewrite length_seqZ. lia.
Qed.

(** X15.  On a bot started fresh, after [n] submissions of any kind the
    history shows the orders numbered [n-9] to [n] (all of [1] to [n]
    while [n <= 10]), oldest first. *)
Theorem history_after_session (ers : list (Env * Request)) :
  map orderId (get_order_history (run init ers))
  = seqZ (1 + Z.of_nat (length ers - 10))
         (Z.of_nat (Nat.min 10 (length ers))).
Proof.
  pose proof (session_log_ids ers init) as Hlog. cbn [init orders map app
    order_id_counter] in Hlog.
  assert (Hlen : length (orders (run init ers)) = length ers).
  { rewrite <- (length_map orderId), Hlog, length_seqZ. lia. }
  unfold get_order_history.
  change (map orderId (drop ?k ?l)) with (orderId <$> drop k l).
  rewrite fmap_drop. change (orderId <$> ?l) with (map orderId l).
  rewrite Hlog, Hlen, drop_seqZ_of_nat by lia.
  f_equal. lia.
Qed.

(** ** Account summary *)

Section AccountSummary.
Variable w : string -> Env.


End AccountSummary.



(** ** The menu loop *)

Lemma menu_option_bot (w : string -> Env) (t : Turn) (bot : Bot) :
  fst (menu_option w t bot)
  = match t with
    | Place (Choice1 sym sd (Some q)) =>
        step bot (w sym, MarketOrder sym sd q)
    | Place (Choice2 sym sd (Some q) (Some lp)) =>
        step bot (w sym, LimitOrder sym sd q lp)
    | _ => bot
    end.
Proof.
  destruct t as [[sym sd [q|] | sym sd [q|] [lp|]] | | | sym | |]; reflexivity.
Qed.

Lemma main_loop_bot (script : list ((string -> Env) * Turn)) (bot : Bot) :
  fst (main_loop script bot) = run bot (submitted script).
Proof.
  revert bot. induction script as [| [w t] rest IH]; intros bot.
  - reflexivity.
  - destruct t as [[sym sd [q|] | sym sd [q|] [lp|]] | | | sym | |];
      cbn [main_loop submitted fst]; rewrite ?IH, ?menu_option_bot;
      reflexivity.
Qed.

Lemma run_counter (ers : list (Env * Request)) (s : Bot) :
  order_id_counter (run s ers)
  = (order_id_counter s + Z.of_nat (length ers))%Z.
Proof.
  revert s. induction ers as [| er ers IH]; intros s.
  - cbn. lia.
  - rewrite run_cons, IH.
    destruct (submit_logged s er) as (_ & _ & ->). cbn [length]. lia.
Qed.

(** X18.  The account at the end of [main] is the one reached by
    submitting, in order, the orders of options 1 and 2 whose numbers
    were well typed, up to the first option 6: showing the balance, the
    history or a price, an unknown option, and an order with a mistyped
    number neither change the account nor use up an order identifier,
    and nothing entered after option 6 is processed. *)
Theorem main_runs_submitted_orders
    (script : list ((string -> Env) * Turn)) (bot : Bot) :
  fst (main_loop script bot) = run bot (submitted script)
  /\ fst (main script) = run init (submitted script).
Proof.
  split; [apply main_loop_bot | apply (main_loop_bot script init)].
Qed.

(** X19.  Identifiers across a whole run of [main]: the order log at the
    end holds exactly as many orders as were submitted, numbered 1, 2,
    3, ... in log order, and the counter is one more than their number;
    passes of the menu that submit nothing leave no gap. *)
Theorem main_log_is_numbered (script : list ((string -> Env) * Turn)) :
  map orderId (orders (fst (main script)))
  = seqZ 1 (Z.of_nat (length (submitted script)))
  /\ length (orders (fst (main script))) = length (submitted script)
  /\ order_id_counter (fst (main script))
     = (1 + Z.of_nat (length (orders (fst (main script)))))%Z.
Proof.
  unfold main. cbn [fst]. rewrite main_loop_bot.
  pose proof (session_log_ids (submitted script) init) as Hlog.
  cbn [init orders map app order_id_counter] in Hlog.
  assert (Hlen : length (orders (run init (submitted script)))
                 = length (submitted script)).
  { rewrite <- (length_map orderId), Hlog, length_seqZ. lia. }
  split; [exact Hlog|]. split; [exact Hlen|].
  rewrite Hlen, run_counter. reflexivity.
Qed.

(** X20.  With no position of positive quantity (a fresh bot, or one
    whose positions are all sold out or short) the total portfolio value
    is the cash balance itself, whatever the prices are. *)
Theorem portfolio_value_without_holdings (w : string -> Env) (s : Bot) :
  map_Forall (fun _ v => v <= 0) (positions s) ->
  Account.total_portfolio_value (get_account_balance w s) = balance s.
Proof.
  intros Hall. cbn [get_account_balance Account.total_portfolio_value].
  rewrite map_fold_foldr.
  assert (Hl : Forall (fun kv => snd kv <= 0) (map_to_list (positions s))).
  { apply Forall_forall. intros [k v] Hin.
    apply elem_of_map_to_list in Hin. exact (Hall k v Hin). }
  induction Hl as [| [k v] l Hv _ IH]; cbn; [reflexivity|].
  cbn in Hv. unfold add_position_value at 1, is_positive.
  rewrite (Qle_bool_true _ _ Hv). exact IH.
Qed.

Lemma portfolio_value_without_holdings_witness :
  Account.total_portfolio_value
    (get_account_balance (fun _ => quote 100) short_bot) = balance short_bot.
Proof.
  apply portfolio_value_without_holdings.
  change (positions short_bot)
    with (<["BTCUSDT" := 0 + -5]> (∅ : gmap string Q)).
  apply map_Forall_insert_2; [vm_compute; discriminate | apply map_Forall_empty].
Defined.

(** * The order processor in any arithmetic *)

Section GenericProcessor.
Context {N : Type} {A : Generic.Arith N}.
Variables (e : Generic.Env N) (sym sd : string) (q : N) (s : Generic.Bot N).


Lemma generic_market_buy_rejects :
  upper sd = "BUY" ->
  Generic.leb (Generic.mul q (fst (Generic.get_current_price e sym)))
              (Generic.balance s) = false ->
  Generic.status (Generic.order_of (Generic.place_market_order e sym sd q s))
  = REJECTED
  /\ map fst (Generic.items
                (Generic.order_of (Generic.place_market_order e sym sd q s)))
     = ["orderId"; "symbol"; "side"; "type"; "quantity"; "price";
        "total_cost"; "status"; "timestamp"]
  /\ Generic.printed (Generic.place_market_order e sym sd q s)
     = snd (Generic.get_current_price e sym)
       ++ [Generic.INSUFFICIENT_BALANCE
             (Generic.mul q (fst (Generic.get_current_price e sym)))
             (Generic.balance s)]
  /\ Generic.balance (Generic.bot_of (Generic.place_market_order e sym sd q s))
     = Generic.balance s
  /\ Generic.positions
       (Generic.bot_of (Generic.place_market_order e sym sd q s))
     = Generic.positions s.
Proof.
  intros Hsd Hle. unfold Generic.place_market_order.
  rewrite (side_is _ _ Hsd), Hle. cbn. auto.
Qed.

End GenericProcessor.

(** ** Insufficient funds *)

(** C7, as stated, fails on the reason: at the documented instance
    (balance 100, price 50, BUY 3, in binary64) the order comes back
    REJECTED, but its dictionary has the nine keys of every market order
    and no reason among them; the cause is only printed. *)
Lemma rejected_order_carries_no_reason :
  Generic.status
    (Generic.order_of
       (Generic.place_market_order (quote64 50) "BTCUSDT" "BUY" 3%float
                                   (Generic.mkBot 100%float ∅ [] 1)))
  = REJECTED
  /\ map fst
       (Generic.items
          (Generic.order_of
             (Generic.place_market_order (quote64 50) "BTCUSDT" "BUY" 3%float
                                         (Generic.mkBot 100%float ∅ [] 1))))
     = ["orderId"; "symbol"; "side"; "type"; "quantity"; "price";
        "total_cost"; "status"; "timestamp"]
  /\ Generic.get
       (Generic.order_of
          (Generic.place_market_order (quote64 50) "BTCUSDT" "BUY" 3%float
                                      (Generic.mkBot 100%float ∅ [] 1)))
       "reason" = None
  /\ Generic.printed
       (Generic.place_market_order (quote64 50) "BTCUSDT" "BUY" 3%float
                                   (Generic.mkBot 100%float ∅ [] 1))
     = [Generic.INSUFFICIENT_BALANCE 150%float 100%float].
Proof. repeat split; reflexivity. Qed.

(** C7, amended.  In the program's arithmetic as in any other: a market
    BUY whose computed cost [total_cost = q * p] is not covered by the
    balance (the test [self.balance >= total_cost] fails) is returned
    REJECTED; the order carries no reason, the cause being printed as
    INSUFFICIENT BALANCE with the cost and the balance; and neither the
    cash balance nor any position is changed. *)
Theorem market_buy_insufficient_funds
    {N : Type} {A : Generic.Arith N}
    (e : Generic.Env N) (sym sd : string) (q : N) (s : Generic.Bot N) :
  upper sd = "BUY" ->
  Generic.leb (Generic.mul q (fst (Generic.get_current_price e sym)))
              (Generic.balance s) = false ->
  Generic.status (Generic.order_of (Generic.place_market_order e sym sd q s))
  = REJECTED
  /\ Generic.get (Generic.order_of (Generic.place_market_order e sym sd q s))
                 "reason" = None
  /\ In (Generic.INSUFFICIENT_BALANCE
           (Generic.mul q (fst (Generic.get_current_price e sym)))
           (Generic.balance s))
        (Generic.printed (Generic.place_market_order e sym sd q s))
  /\ Generic.balance (Generic.bot_of (Generic.place_market_order e sym sd q s))
     = Generic.balance s
  /\ Generic.positions
       (Generic.bot_of (Generic.place_market_order e sym sd q s))
     = Generic.positions s.
Proof.
  intros Hsd Hno.
  destruct (generic_market_buy_rejects e sym sd q s Hsd Hno)
    as (Hst & Hkeys & Hout & Hb & Hp).
  split; [exact Hst|]. split; [|split; [|split; [exact Hb | exact Hp]]].
  - unfold Generic.place_market_order.
    rewrite (side_is _ _ Hsd), Hno. reflexivity.
  - rewrite Hout. apply in_or_app. right. left. reflexivity.
Qed.

(** C7 amended at the documented instance, in binary64: balance 100,
    price 50, BUY 3. *)
Lemma market_buy_insufficient_funds_witness :
  Generic.status
    (Generic.order_of
       (Generic.place_market_order (quote64 50) "BTCUSDT" "BUY" 3%float
                                   (Generic.mkBot 100%float ∅ [] 1)))
  = REJECTED
  /\ Generic.balance
       (Generic.bot_of
          (Generic.place_market_order (quote64 50) "BTCUSDT" "BUY" 3%float
                                      (Generic.mkBot 100%float ∅ [] 1)))
     = 100%float.
Proof.
  destruct (market_buy_insufficient_funds (quote64 50) "BTCUSDT" "BUY" 3%float
              (Generic.mkBot 100%float ∅ [] 1)) as (Hst & _ & _ & Hb & _);
    [reflexivity | reflexivity | ].
  split; [exact Hst | exact Hb].
Defined.

(** ** Round trip *)




(** ** Limit orders that are marketable and rejected *)

(** X6.  In the program's arithmetic as in any other: a limit order whose
    price condition holds but whose balance check (BUY: the test
    [balance >= q * p] fails) or position check (SELL: the test
    [held >= q] fails) does not pass is returned REJECTED with the ledger
    untouched; it still carries the market price as its fill price, and
    the only line printed for it is the LIMIT ORDER PLACED block with
    status REJECTED. *)
Theorem limit_marketable_rejected
    {N : Type} {A : Generic.Arith N}
    (e : Generic.Env N) (sym sd : string) (q lp : N) (s : Generic.Bot N) :
  (upper sd = "BUY"
   /\ Generic.leb (fst (Generic.get_current_price e sym)) lp = true
   /\ Generic.leb (Generic.mul q (fst (Generic.get_current_price e sym)))
                  (Generic.balance s) = false)
  \/ (upper sd = "SELL"
      /\ Generic.leb lp (fst (Generic.get_current_price e sym)) = true
      /\ Generic.leb q (Generic.held s sym) = false) ->
  Generic.status (Generic.order_of (Generic.place_limit_order e sym sd q lp s))
  = REJECTED
  /\ Generic.filled_price
       (Generic.order_of (Generic.place_limit_order e sym sd q lp s))
     = Some (fst (Generic.get_current_price e sym))
  /\ Generic.printed (Generic.place_limit_order e sym sd q lp s)
     = snd (Generic.get_current_price e sym)
       ++ [Generic.LIMIT_ORDER_PLACED sd q sym lp
             (fst (Generic.get_current_price e sym)) REJECTED]
  /\ Generic.balance (Generic.bot_of (Generic.place_limit_order e sym sd q lp s))
     = Generic.balance s
  /\ Generic.positions
       (Generic.bot_of (Generic.place_limit_order e sym sd q lp s))
     = Generic.positions s.
Proof.
  intros [(Hsd & Hgate & Hno) | (Hsd & Hgate & Hno)];
    unfold Generic.place_limit_order.
  - assert (Hns : (upper sd =? "SELL")%string = false)
      by (rewrite Hsd; reflexivity).
    rewrite (side_is _ _ Hsd), Hns, Hgate, Hno. cbn. auto.
  - assert (Hnb : (upper sd =? "BUY")%string = false)
      by (rewrite Hsd; reflexivity).
    rewrite (side_is _ _ Hsd), Hnb, Hgate, Hno. cbn. auto.
Qed.

(** X6 in binary64: a limit BUY of 0.2 at limit 50000.5 against a market
    price of 50000.3 on a fresh bot costs 10000.060000000001 and is
    REJECTED with fill price 50000.3. *)
Lemma limit_marketable_rejected_witness :
  Generic.status
    (Generic.order_of
       (Generic.place_limit_order (quote64 50000.3) "BTCUSDT" "buy" 0.2%float
                                  50000.5%float Generic.init))
  = REJECTED
  /\ Generic.filled_price
       (Generic.order_of
          (Generic.place_limit_order (quote64 50000.3) "BTCUSDT" "buy"
                                     0.2%float 50000.5%float Generic.init))
     = Some 50000.3%float.
Proof.
  destruct (limit_marketable_rejected (quote64 50000.3) "BTCUSDT" "buy"
              0.2%float 50000.5%float Generic.init) as (Hst & Hfp & _).
  - left. split; [reflexivity|]. split; reflexivity.
  - split; [exact Hst | exact Hfp].
Defined.

(** ** The two models *)

(** The generic processor at the exact arithmetic is the rational model:
    on the same inputs both functions return the same order, bot and
    lines. *)
Lemma exact_is_rational_model_market
    (e : Env) (sym sd : string) (q : Q) (s : Bot) :
  Generic.order_of
    (Generic.place_market_order (generic_env e) sym sd q (generic_bot s))
  = generic_order (order_of (place_market_order e sym sd q s))
  /\ Generic.bot_of
       (Generic.place_market_order (generic_env e) sym sd q (generic_bot s))
     = generic_bot (bot_of (place_market_order e sym sd q s)).
Proof.
  unfold Generic.place_market_order, place_market_order.
  assert (Hp : fst (Generic.get_current_price (generic_env e) sym)
               = fst (get_current_price e sym)).
  { unfold Generic.get_current_price, get_current_price, generic_env.
    cbn [Generic.ticker]. destruct (ticker e); reflexivity. }
  rewrite Hp. clear Hp.
  generalize (fst (get_current_price e sym)). intros p.
  unfold generic_bot, Generic.held, held.
  cbn [Generic.now generic_env Generic.leb Generic.mul Generic.add
       Generic.sub Generic.lit exact Generic.balance Generic.positions
       Generic.orders Generic.order_id_counter].
  change (inject_Z 0) with 0.
  destruct (upper sd =? "BUY")%string;
    repeat match goal with
           | |- context [Qle_bool ?a ?b] => destruct (Qle_bool a b)
           end;
    cbn; rewrite ?map_app; auto.
Qed.

Lemma exact_is_rational_model_limit
    (e : Env) (sym sd : string) (q lp : Q) (s : Bot) :
  Generic.order_of
    (Generic.place_limit_order (generic_env e) sym sd q lp (generic_bot s))
  = generic_order (order_of (place_limit_order e sym sd q lp s))
  /\ Generic.bot_of
       (Generic.place_limit_order (generic_env e) sym sd q lp (generic_bot s))
     = generic_bot (bot_of (place_limit_order e sym sd q lp s)).
Proof.
  unfold Generic.place_limit_order, place_limit_order.
  assert (Hp : fst (Generic.get_current_price (generic_env e) sym)
               = fst (get_current_price e sym)).
  { unfold Generic.get_current_price, get_current_price, generic_env.
    cbn [Generic.ticker]. destruct (ticker e); reflexivity. }
  rewrite Hp. clear Hp.
  generalize (fst (get_current_price e sym)). intros p.
  unfold generic_bot, Generic.held, held.
  cbn [Generic.now generic_env Generic.leb Generic.mul Generic.add
       Generic.sub Generic.lit exact Generic.balance Generic.positions
       Generic.orders Generic.order_id_counter].
  change (inject_Z 0) with 0.
  destruct (upper sd =? "BUY")%string; destruct (upper sd =? "SELL")%string;
    repeat match goal with
           | |- context [Qle_bool ?a ?b] => destruct (Qle_bool a b)
           end;
    cbn; rewrite ?map_app; auto.
Qed.
